(** * Fish bite prediction: the scorer and the weather resolver of [src/App.jsx]

    The React component [FishBitePredictionApp] keeps six pieces of state
    ([formData], [weatherData], [prediction], [loading], [error],
    [geoLoading]) and four handlers that update them.  The state is modelled
    as a record, each [setX] as a function on that record, and each handler
    as a transition.  The two asynchronous handlers are split at their
    [await]: one transition up to the request, one from the settled request.

    JavaScript values are modelled as the code uses them:
    - a number is a rational, an infinity or NaN (every finite double is a
      rational, and the code only compares numbers with integer literals and
      rounds them, which is exact);
    - a string is a sequence of code units below 256;
    - the score is an integer: it starts at 50 and only integer literals are
      added to it. *)

From Stdlib Require Import ZArith QArith Qround String Ascii List Bool Lia Lqa.
Import ListNotations.

Open Scope string_scope.
Open Scope Z_scope.

(** ** The JavaScript primitives the component calls *)

Module JS.

(** A Number value. *)
Inductive number : Type :=
| Fin (q : Q)
| PosInf
| NegInf
| NaN.

(** An integer literal of the source, such as [18] or [5]. *)
Definition lit (z : Z) : number := Fin (inject_Z z).

(** The comparison [x < y] of the language definition, before the operators
    interpret it: [None] is its "undefined", given when an operand is NaN. *)
Definition less (x y : number) : option bool :=
  match x, y with
  | NaN, _ | _, NaN => None
  | Fin a, Fin b => Some (negb (Qle_bool b a))
  | PosInf, _ => Some false
  | _, PosInf => Some true
  | _, NegInf => Some false
  | NegInf, _ => Some true
  end.

(** [x < y], [x > y], [x <= y], [x >= y]. *)
Definition lt (x y : number) : bool :=
  match less x y with Some b => b | None => false end.
Definition gt (x y : number) : bool :=
  match less y x with Some b => b | None => false end.
Definition le (x y : number) : bool :=
  match less y x with Some b => negb b | None => false end.
Definition ge (x y : number) : bool :=
  match less x y with Some b => negb b | None => false end.

(** [Math.round]: the nearest integer, a tie going up. *)
Definition round (x : number) : number :=
  match x with
  | Fin q => Fin (inject_Z (Qfloor (q + (1 # 2))))
  | other => other
  end.

(** [Math.max] and [Math.min] on the integers of the score. *)
Definition max (a b : Z) : Z := Z.max a b.
Definition min (a b : Z) : Z := Z.min a b.

Definition code (c : ascii) : N := N_of_ascii c.

Definition between (lo hi : N) (c : ascii) : bool :=
  ((lo <=? code c) && (code c <=? hi))%N.

(** [toLowerCase] on one code unit: A-Z and the Latin-1 capitals. *)
Definition lower_char (c : ascii) : ascii :=
  if between 65 90 c || between 192 214 c || between 216 222 c
  then ascii_of_N (code c + 32)
  else c.

Fixpoint toLowerCase (s : string) : string :=
  match s with
  | EmptyString => EmptyString
  | String c rest => String (lower_char c) (toLowerCase rest)
  end.

(** [needle] is the beginning of [s]. *)
Fixpoint starts_with (needle s : string) : bool :=
  match needle, s with
  | EmptyString, _ => true
  | String _ _, EmptyString => false
  | String a needle', String b s' => Ascii.eqb a b && starts_with needle' s'
  end.

(** [s.includes(needle)]: [needle] starts at some position of [s]. *)
Fixpoint includes (s needle : string) : bool :=
  starts_with needle s ||
  match s with
  | EmptyString => false
  | String _ rest => includes rest needle
  end.

(** [s.split(sep)] for a separator of one code unit. *)
Fixpoint split (sep : ascii) (s : string) : list string :=
  match s with
  | EmptyString => [EmptyString]
  | String c rest =>
      if Ascii.eqb c sep then EmptyString :: split sep rest
      else match split sep rest with
           | piece :: pieces => String c piece :: pieces
           | [] => [String c EmptyString]
           end
  end.

(** The white space [parseInt] skips. *)
Definition is_white (c : ascii) : bool :=
  between 9 13 c || N.eqb (code c) 32 || N.eqb (code c) 160.

Fixpoint trim_start (s : string) : string :=
  match s with
  | EmptyString => EmptyString
  | String c rest => if is_white c then trim_start rest else s
  end.

(** The value of a digit: 0-9, then a-z and A-Z from 10. *)
Definition digit_value (c : ascii) : option Z :=
  if between 48 57 c then Some (Z.of_N (code c) - 48)
  else if between 97 122 c then Some (Z.of_N (code c) - 87)
  else if between 65 90 c then Some (Z.of_N (code c) - 55)
  else None.

(** The integer written by the longest prefix of digits of the radix;
    [acc] is [None] until a digit has been read. *)
Fixpoint digits (radix : Z) (s : string) (acc : option Z) : option Z :=
  match s with
  | EmptyString => acc
  | String c rest =>
      match digit_value c with
      | Some d =>
          if d <? radix
          then digits radix rest
                 (Some (match acc with Some a => a * radix + d | None => d end))
          else acc
      | None => acc
      end
  end.

(** [parseInt(s)] with no radix: white space, a sign, [0x] or [0X] for
    radix 16, the digits; NaN when there is no digit.  The result is the
    exact integer, where the language rounds a long numeral to a double:
    rounding moves no integer across 6, 10, 16 or 19. *)
Definition parseInt (s : string) : number :=
  let s1 := trim_start s in
  let '(sign, s2) :=
    match s1 with
    | String "-" rest => (-1, rest)
    | String "+" rest => (1, rest)
    | _ => (1, s1)
    end in
  let '(radix, s3) :=
    match s2 with
    | String "0" (String "x" rest) => (16, rest)
    | String "0" (String "X" rest) => (16, rest)
    | _ => (10, s2)
    end in
  match digits radix s3 None with
  | Some n => lit (sign * n)
  | None => NaN
  end.

(** What an expression evaluates to: a value, or a thrown exception. *)
Inductive exn : Type := TypeError.

Inductive completion (A : Type) : Type :=
| Normal (a : A)
| Throw (e : exn).
Arguments Normal {A} a.
Arguments Throw {A} e.

Definition bind {A B : Type} (m : completion A) (k : A -> completion B)
  : completion B :=
  match m with
  | Normal a => k a
  | Throw e => Throw e
  end.

(** [xs[i].f]: reading a property of [xs[i]] throws when [xs[i]] is
    undefined. *)
Definition member {A B : Type} (xs : list A) (i : nat) (f : A -> B)
  : completion B :=
  match nth_error xs i with
  | Some x => Normal (f x)
  | None => Throw TypeError
  end.

End JS.

Notation "x <- m ;; k" := (JS.bind m (fun x => k))
  (at level 61, m at next level, right associativity).

(** ** The state of the component *)

Record FormData : Type := mkFormData {
  location : string;
  waterTemperature : JS.number;
  timeOfDay : string;
  moonPhase : string
}.

(** One entry of the provider's [weather] array. *)
Record Condition : Type := mkCondition {
  main : string;
  description : string
}.

(** The body of the provider's response, [response.data]: [name],
    [main.temp], [weather] and [wind.speed]. *)
Record WeatherData : Type := mkWeatherData {
  name : string;
  main_temp : JS.number;
  weather : list Condition;
  wind_speed : JS.number
}.

Record AppState : Type := mkAppState {
  formData : FormData;
  weatherData : option WeatherData;
  prediction : option Z;
  loading : bool;
  error : option string;
  geoLoading : bool
}.

(** The state of the first render. *)
Definition initialState : AppState :=
  mkAppState (mkFormData "" (JS.lit 20) "08:00" "full") None None false None false.

Definition setFormData (f : FormData -> FormData) (st : AppState) : AppState :=
  mkAppState (f (formData st)) (weatherData st) (prediction st)
             (loading st) (error st) (geoLoading st).

Definition setWeatherData (w : option WeatherData) (st : AppState) : AppState :=
  mkAppState (formData st) w (prediction st)
             (loading st) (error st) (geoLoading st).

Definition setPrediction (p : option Z) (st : AppState) : AppState :=
  mkAppState (formData st) (weatherData st) p
             (loading st) (error st) (geoLoading st).

Definition setLoading (b : bool) (st : AppState) : AppState :=
  mkAppState (formData st) (weatherData st) (prediction st)
             b (error st) (geoLoading st).

Definition setError (e : option string) (st : AppState) : AppState :=
  mkAppState (formData st) (weatherData st) (prediction st)
             (loading st) e (geoLoading st).

Definition setGeoLoading (b : bool) (st : AppState) : AppState :=
  mkAppState (formData st) (weatherData st) (prediction st)
             (loading st) (error st) b.

(** Statements of a handler, run from left to right. *)
Notation "st |> f" := (f st) (at level 45, left associativity, only parsing).

(** ** The scorer, [predictFishBite] *)

(** "Water temperature impact".  [waterTemperature] is the number the
    comparison sees: the field holds a number, or the text of the number
    input, which [>=] and [<=] convert to a number. *)
Definition waterTemperatureImpact (waterTemperature : JS.number) : Z :=
  if JS.ge waterTemperature (JS.lit 18) && JS.le waterTemperature (JS.lit 24)
  then 20 else 0.

(** [parseInt(timeOfDay.split(':')[0])]; [parseInt(undefined)] is NaN. *)
Definition hourOf (timeOfDay : string) : JS.number :=
  match nth_error (JS.split ":" timeOfDay) 0 with
  | Some piece => JS.parseInt piece
  | None => JS.NaN
  end.

(** "Time of day impact": two [if]s, one after the other. *)
Definition timeImpact (timeOfDay : string) : Z :=
  let hour := hourOf timeOfDay in
  (if JS.ge hour (JS.lit 6) && JS.le hour (JS.lit 10) then 15 else 0) +
  (if JS.ge hour (JS.lit 16) && JS.le hour (JS.lit 19) then 15 else 0).

(** "Weather impact": [switch(true)], the first case that holds is taken. *)
Definition weatherImpact (main : string) : Z :=
  let mainWeather := JS.toLowerCase main in
  if JS.includes mainWeather "clear" then 10
  else if JS.includes mainWeather "clouds" then 5
  else if JS.includes mainWeather "rain" then -10
  else 0.

(** "Wind impact". *)
Definition windImpact (speed : JS.number) : Z :=
  if JS.lt speed (JS.lit 5) then 10
  else if JS.gt speed (JS.lit 10) then -10
  else 0.

(** "Moon phase impact". *)
Definition moonImpact (moonPhase : string) : Z :=
  if String.eqb moonPhase "full" then 10
  else if String.eqb moonPhase "new" then -5
  else 0.

(** The value of [score] before "Ensure score is between 0 and 100":
    50 and the five impacts, added in the order of the source.
    [weather[0].main] throws when the array is empty. *)
Definition runningTotal (fd : FormData) (wd : WeatherData) : JS.completion Z :=
  mainCategory <- JS.member (weather wd) 0 main ;;
  JS.Normal (50 + waterTemperatureImpact (waterTemperature fd)
                + timeImpact (timeOfDay fd)
                + weatherImpact mainCategory
                + windImpact (wind_speed wd)
                + moonImpact (moonPhase fd)).

(** [Math.max(0, Math.min(100, score))]. *)
Definition clamp (score : Z) : Z := JS.max 0 (JS.min 100 score).

Definition predictFishBite (st : AppState) : JS.completion AppState :=
  match weatherData st with
  | None => JS.Normal (st |> setError (Some "Please fetch weather data first"))
  | Some wd =>
      score <- runningTotal (formData st) wd ;;
      JS.Normal (st |> setPrediction (Some (clamp score)))
  end.

(** ** The tier shown under the score *)

(** The three paragraphs of the result: "Excellent fishing conditions!",
    "Moderate fishing conditions", "Poor fishing conditions". *)
Inductive tier : Type := Excellent | Moderate | Poor.

(** Each paragraph is rendered under its own condition. *)
Definition tierParagraphs (prediction : Z) : list tier :=
  (if prediction >? 70 then [Excellent] else []) ++
  (if (prediction >? 40) && (prediction <=? 70) then [Moderate] else []) ++
  (if prediction <=? 40 then [Poor] else []).

(** The result block is rendered when [prediction !== null]. *)
Definition predictionResult (st : AppState) : option (Z * list tier) :=
  match prediction st with
  | Some p => Some (p, tierParagraphs p)
  | None => None
  end.

(** ** The resolver: [fetchWeatherData], [fetchWeatherByCoords],
    [handleGeolocate] *)

(** The request sent to the provider: by place name ([?q=]) or by
    coordinates ([?lat=&lon=]). *)
Inductive request : Type :=
| GetByName (q : string)
| GetByCoords (latitude longitude : JS.number).

(** How the awaited request settles: with [response.data], or rejected. *)
Inductive settled : Type :=
| Fulfilled (data : WeatherData)
| Rejected.

(** [fetchWeatherData] up to its [await]: the state, and the request if one
    is sent. *)
Definition fetchWeatherData_request (st : AppState) : AppState * option request :=
  if String.eqb (location (formData st)) ""
  then (st |> setError (Some "Please enter a location"), None)
  else (st |> setLoading true |> setError None,
        Some (GetByName (location (formData st)))).

(** [fetchWeatherData] from the settled request: [try], [catch], [finally]. *)
Definition fetchWeatherData_settled (r : settled) (st : AppState) : AppState :=
  match r with
  | Fulfilled data =>
      st |> setWeatherData (Some data)
         |> setFormData (fun prev =>
              mkFormData (location prev) (JS.round (main_temp data))
                         (timeOfDay prev) (moonPhase prev))
  | Rejected =>
      st |> setError (Some "Could not fetch weather data. Please check the location.")
         |> setWeatherData None
  end
  |> setLoading false.

(** The whole of [fetchWeatherData] when nothing else runs in between. *)
Definition fetchWeatherData (r : settled) (st : AppState) : AppState :=
  match fetchWeatherData_request st with
  | (st1, Some _) => fetchWeatherData_settled r st1
  | (st1, None) => st1
  end.

Definition fetchWeatherByCoords_request (latitude longitude : JS.number)
    (st : AppState) : AppState * request :=
  (st |> setLoading true |> setError None, GetByCoords latitude longitude).

Definition fetchWeatherByCoords_settled (r : settled) (st : AppState) : AppState :=
  match r with
  | Fulfilled data =>
      st |> setWeatherData (Some data)
         |> setFormData (fun prev =>
              mkFormData (name data) (JS.round (main_temp data))
                         (timeOfDay prev) (moonPhase prev))
  | Rejected =>
      st |> setError (Some "Could not fetch weather data for your location.")
         |> setWeatherData None
  end
  |> setLoading false
  |> setGeoLoading false.

Definition fetchWeatherByCoords (latitude longitude : JS.number) (r : settled)
    (st : AppState) : AppState :=
  fetchWeatherByCoords_settled r (fst (fetchWeatherByCoords_request latitude longitude st)).

(** The codes of a geolocation error. *)
Definition PERMISSION_DENIED : Z := 1.
Definition POSITION_UNAVAILABLE : Z := 2.
Definition TIMEOUT : Z := 3.

(** What [getCurrentPosition] calls back with. *)
Inductive located : Type :=
| Position (latitude longitude : JS.number)
| PositionError (code : Z).

(** [handleGeolocate] up to [getCurrentPosition]; [supported] is whether
    [navigator.geolocation] is there.  The boolean tells whether the position
    was asked for. *)
Definition handleGeolocate_request (supported : bool) (st : AppState)
    : AppState * bool :=
  if negb supported
  then (st |> setError (Some "Geolocation is not supported by your browser"), false)
  else (st |> setGeoLoading true |> setError None, true).

(** The error callback of [getCurrentPosition]. *)
Definition handleGeolocate_error (code : Z) (st : AppState) : AppState :=
  st |> setGeoLoading false
     |> setError (Some (
          if code =? PERMISSION_DENIED then "User denied the request for Geolocation."
          else if code =? POSITION_UNAVAILABLE then "Location information is unavailable."
          else if code =? TIMEOUT then "The request to get user location timed out."
          else "An unknown error occurred.")).

(** The whole of [handleGeolocate]: the position callback starts
    [fetchWeatherByCoords], which settles with [r]. *)
Definition handleGeolocate (supported : bool) (l : located) (r : settled)
    (st : AppState) : AppState :=
  match handleGeolocate_request supported st with
  | (st1, false) => st1
  | (st1, true) =>
      match l with
      | Position latitude longitude => fetchWeatherByCoords latitude longitude r st1
      | PositionError code => handleGeolocate_error code st1
      end
  end.

(** ** The form, [handleInputChange] *)

(** What the component takes from the browser: whether
    [navigator.geolocation] is there, and the conversion of a text to a
    number, which [>=] and [<=] apply to the text of the number input. *)
Record Browser : Type := mkBrowser {
  geolocation : bool;
  toNumber : string -> JS.number
}.

(** [setFormData(prev => ({...prev, [name]: value}))] with the [name] and
    [value] of the input that changed.  A name that is none of the four
    fields adds a property nothing reads. *)
Definition handleInputChange (b : Browser) (field value : string)
    (st : AppState) : AppState :=
  st |> setFormData (fun prev =>
    if String.eqb field "location"
    then mkFormData value (waterTemperature prev) (timeOfDay prev) (moonPhase prev)
    else if String.eqb field "waterTemperature"
    then mkFormData (location prev) (toNumber b value) (timeOfDay prev) (moonPhase prev)
    else if String.eqb field "timeOfDay"
    then mkFormData (location prev) (waterTemperature prev) value (moonPhase prev)
    else if String.eqb field "moonPhase"
    then mkFormData (location prev) (waterTemperature prev) (timeOfDay prev) value
    else prev).

(** ** What is rendered *)

(** [disabled={loading}], [disabled={geoLoading}], [disabled={!weatherData}]. *)
Definition getWeatherDisabled (st : AppState) : bool := loading st.

Definition geolocateDisabled (st : AppState) : bool := geoLoading st.

Definition predictDisabled (st : AppState) : bool :=
  match weatherData st with
  | Some _ => false
  | None => true
  end.

(** [{error && <div className="error-message">{error}</div>}]: the message
    shown, if one is. *)
Definition errorMessage (st : AppState) : option string :=
  match error st with
  | Some msg => if String.eqb msg "" then None else Some msg
  | None => None
  end.

(** ** A session: the component, its buttons and its outstanding calls *)

(** The state of the component with the calls that have not come back yet:
    requests by name, calls of [getCurrentPosition], requests by
    coordinates. *)
Record Session : Type := mkSession {
  ui : AppState;
  namePending : nat;
  positionPending : nat;
  coordsPending : nat
}.

(** What can happen: an input changes, a button is clicked, a call comes
    back. *)
Inductive event : Type :=
| Change (field value : string)
| ClickGetWeather
| ClickGeolocate
| ClickPredict
| NameResponse (r : settled)
| PositionCallback (l : located)
| CoordsResponse (r : settled).

(** One event.  [None]: the event cannot happen, the button being disabled or
    no call of the kind being outstanding.  An exception thrown by a click
    handler leaves the state as it was. *)
Definition step (b : Browser) (e : event) (s : Session) : option Session :=
  match e with
  | Change field value =>
      Some (mkSession (handleInputChange b field value (ui s))
                      (namePending s) (positionPending s) (coordsPending s))
  | ClickGetWeather =>
      if getWeatherDisabled (ui s) then None
      else match fetchWeatherData_request (ui s) with
           | (st, Some _) =>
               Some (mkSession st (S (namePending s)) (positionPending s) (coordsPending s))
           | (st, None) =>
               Some (mkSession st (namePending s) (positionPending s) (coordsPending s))
           end
  | ClickGeolocate =>
      if geolocateDisabled (ui s) then None
      else match handleGeolocate_request (geolocation b) (ui s) with
           | (st, true) =>
               Some (mkSession st (namePending s) (S (positionPending s)) (coordsPending s))
           | (st, false) =>
               Some (mkSession st (namePending s) (positionPending s) (coordsPending s))
           end
  | ClickPredict =>
      if predictDisabled (ui s) then None
      else match predictFishBite (ui s) with
           | JS.Normal st =>
               Some (mkSession st (namePending s) (positionPending s) (coordsPending s))
           | JS.Throw _ => Some s
           end
  | NameResponse r =>
      match namePending s with
      | O => None
      | S n =>
          Some (mkSession (fetchWeatherData_settled r (ui s))
                          n (positionPending s) (coordsPending s))
      end
  | PositionCallback l =>
      match positionPending s with
      | O => None
      | S n =>
          match l with
          | Position latitude longitude =>
              Some (mkSession (fst (fetchWeatherByCoords_request latitude longitude (ui s)))
                              (namePending s) n (S (coordsPending s)))
          | PositionError code =>
              Some (mkSession (handleGeolocate_error code (ui s))
                              (namePending s) n (coordsPending s))
          end
      end
  | CoordsResponse r =>
      match coordsPending s with
      | O => None
      | S n =>
          Some (mkSession (fetchWeatherByCoords_settled r (ui s))
                          (namePending s) (positionPending s) n)
      end
  end.

(** The events of a list, one after the other. *)
Fixpoint run (b : Browser) (es : list event) (s : Session) : option Session :=
  match es with
  | [] => Some s
  | e :: rest =>
      match step b e s with
      | Some s' => run b rest s'
      | None => None
      end
  end.

(** The first render, nothing outstanding. *)
Definition start : Session := mkSession initialState 0 0 0.

(** A browser with geolocation that reads no text as a number. *)
Definition sampleBrowser : Browser := mkBrowser true (fun _ => JS.NaN).

(** A session: a rainy, windy observation is fetched for Oslo, the time is
    set to 13:00 and the moon to new, and Predict is clicked. *)
Definition rainyDay : list event :=
  [Change "location" "Oslo"; ClickGetWeather;
   NameResponse (Fulfilled (mkWeatherData "Oslo" (JS.lit 2)
                              [mkCondition "Rain" "rain"] (JS.lit 12)));
   Change "timeOfDay" "13:00"; Change "moonPhase" "new"; ClickPredict].

(** The decimal digit [n] as a code unit. *)
Definition digit (n : nat) : ascii := ascii_of_nat (48 + n).

(** [c] does not occur in [s]. *)
Fixpoint lacks (c : ascii) (s : string) : bool :=
  match s with
  | EmptyString => true
  | String d rest => negb (Ascii.eqb d c) && lacks c rest
  end.

(** ** Case-insensitive occurrence *)

(** [word] occurs in [s], letter case aside: some stretch [m] of [s] is
    [word] once both are put in lower case. *)
Definition mentions (s word : string) : Prop :=
  exists p m q, s = p ++ m ++ q /\ JS.toLowerCase m = JS.toLowerCase word.

(** ** Sample states *)

(** An observation of clear weather with wind speed 3. *)
Definition observationA : WeatherData :=
  mkWeatherData "Oslo" (JS.Fin (9 # 2)) [mkCondition "Clear" "clear sky"] (JS.lit 3).

(** The first render, with the location filled in. *)
Definition typedOslo : AppState :=
  initialState |> setFormData (fun prev =>
    mkFormData "Oslo" (waterTemperature prev) (timeOfDay prev) (moonPhase prev)).

(** A response body that is fulfilled but malformed: its [weather] array is
    empty. *)
Definition malformedBody : WeatherData :=
  mkWeatherData "Oslo" (JS.lit 20) [] (JS.lit 3).

(** An observation at 17.5 degrees, clear, with wind speed 3. *)
Definition observationB : WeatherData :=
  mkWeatherData "Oslo" (JS.Fin (35 # 2)) [mkCondition "Clear" "clear sky"] (JS.lit 3).

(** The first render, once [observationA] is stored and the form is left at
    its defaults. *)
Definition scenarioA : AppState :=
  initialState |> setWeatherData (Some observationA).

(** ** Comparisons of numbers *)

Section Comparisons.

Local Open Scope Q_scope.

Lemma lt_Fin (a b : Q) : JS.lt (JS.Fin a) (JS.Fin b) = true <-> a < b.
Proof.
  unfold JS.lt; simpl. rewrite negb_true_iff.
  split; intro H.
  - apply Qnot_le_lt. intro Hle. apply Qle_bool_iff in Hle. congruence.
  - destruct (Qle_bool b a) eqn:E; [|reflexivity].
    apply Qle_bool_iff in E. exfalso. exact (Qlt_not_le _ _ H E).
Qed.

Lemma gt_Fin (a b : Q) : JS.gt (JS.Fin a) (JS.Fin b) = true <-> b < a.
Proof. exact (lt_Fin b a). Qed.

Lemma le_Fin (a b : Q) : JS.le (JS.Fin a) (JS.Fin b) = true <-> a <= b.
Proof.
  unfold JS.le; simpl. rewrite negb_involutive. apply Qle_bool_iff.
Qed.

Lemma ge_Fin (a b : Q) : JS.ge (JS.Fin a) (JS.Fin b) = true <-> b <= a.
Proof.
  unfold JS.ge; simpl. rewrite negb_involutive. apply Qle_bool_iff.
Qed.

(** No number is at most [lo] and at least [hi] when [lo < hi]. *)
Lemma le_ge_disjoint (x : JS.number) (lo hi : Z) :
  (lo < hi)%Z ->
  JS.le x (JS.lit lo) = true -> JS.ge x (JS.lit hi) = true -> False.
Proof.
  intros Hlt Hle Hge. destruct x as [q| | |]; try discriminate.
  apply le_Fin in Hle. apply ge_Fin in Hge.
  pose proof (Qle_trans _ _ _ Hge Hle) as H.
  rewrite <- Zle_Qle in H. lia.
Qed.

End Comparisons.

(** ** The range of the score *)

Lemma clamp_range (score : Z) : 0 <= clamp score <= 100.
Proof. unfold clamp, JS.max, JS.min. lia. Qed.

Lemma waterTemperatureImpact_cases (t : JS.number) :
  waterTemperatureImpact t = 0 \/ waterTemperatureImpact t = 20.
Proof.
  unfold waterTemperatureImpact.
  destruct (JS.ge t (JS.lit 18) && JS.le t (JS.lit 24)); auto.
Qed.

(** The morning and the evening bonus never add up. *)
Lemma timeImpact_cases (t : string) : timeImpact t = 0 \/ timeImpact t = 15.
Proof.
  unfold timeImpact. cbv zeta.
  destruct (JS.ge (hourOf t) (JS.lit 6)) eqn:G6; simpl;
  destruct (JS.le (hourOf t) (JS.lit 10)) eqn:L10; simpl;
  destruct (JS.ge (hourOf t) (JS.lit 16)) eqn:G16; simpl;
  destruct (JS.le (hourOf t) (JS.lit 19)) eqn:L19; simpl; auto.
  exfalso. apply (le_ge_disjoint (hourOf t) 10 16); auto. lia.
Qed.

Lemma weatherImpact_cases (m : string) :
  weatherImpact m = 10 \/ weatherImpact m = 5 \/
  weatherImpact m = -10 \/ weatherImpact m = 0.
Proof.
  unfold weatherImpact. cbv zeta.
  destruct (JS.includes (JS.toLowerCase m) "clear"); auto.
  destruct (JS.includes (JS.toLowerCase m) "clouds"); auto.
  destruct (JS.includes (JS.toLowerCase m) "rain"); auto.
Qed.

Lemma windImpact_cases (w : JS.number) :
  windImpact w = 10 \/ windImpact w = -10 \/ windImpact w = 0.
Proof.
  unfold windImpact.
  destruct (JS.lt w (JS.lit 5)); auto.
  destruct (JS.gt w (JS.lit 10)); auto.
Qed.

Lemma moonImpact_cases (m : string) :
  moonImpact m = 10 \/ moonImpact m = -5 \/ moonImpact m = 0.
Proof.
  unfold moonImpact.
  destruct (String.eqb m "full"); auto.
  destruct (String.eqb m "new"); auto.
Qed.

(** With a first entry in [weather], the total is computed. *)
Lemma runningTotal_defined (fd : FormData) (wd : WeatherData)
    (c : Condition) (cs : list Condition) :
  weather wd = c :: cs ->
  runningTotal fd wd =
    JS.Normal (50 + waterTemperatureImpact (waterTemperature fd)
                  + timeImpact (timeOfDay fd)
                  + weatherImpact (main c)
                  + windImpact (wind_speed wd)
                  + moonImpact (moonPhase fd)).
Proof.
  intros Hw. unfold runningTotal, JS.member. rewrite Hw. reflexivity.
Qed.

(** With an empty [weather] array, the scorer throws and sets nothing. *)
Lemma runningTotal_empty (fd : FormData) (wd : WeatherData) :
  weather wd = [] -> runningTotal fd wd = JS.Throw JS.TypeError.
Proof.
  intros Hw. unfold runningTotal, JS.member. rewrite Hw. reflexivity.
Qed.

(** The total before the clamp lies between 25 and 115: only the upper
    bound of the clamp is ever reached. *)
Lemma runningTotal_bounds (fd : FormData) (wd : WeatherData) (total : Z) :
  runningTotal fd wd = JS.Normal total -> 25 <= total <= 115.
Proof.
  destruct (weather wd) as [|c cs] eqn:Hw.
  - rewrite (runningTotal_empty fd wd Hw). discriminate.
  - rewrite (runningTotal_defined fd wd c cs Hw). intros Heq.
    assert (Ht : 50 + waterTemperatureImpact (waterTemperature fd)
                    + timeImpact (timeOfDay fd) + weatherImpact (main c)
                    + windImpact (wind_speed wd) + moonImpact (moonPhase fd)
                 = total) by congruence.
    clear Heq.
    pose proof (waterTemperatureImpact_cases (waterTemperature fd)).
    pose proof (timeImpact_cases (timeOfDay fd)).
    pose proof (weatherImpact_cases (main c)).
    pose proof (windImpact_cases (wind_speed wd)).
    pose proof (moonImpact_cases (moonPhase fd)).
    lia.
Qed.

(** All penalties at once: water at 10 degrees, "13:00", a new moon, "Rain"
    and wind speed 12 give the least total, 25, shown as "poor". *)
Example all_penalties :
  runningTotal (mkFormData "Oslo" (JS.lit 10) "13:00" "new")
               (mkWeatherData "Oslo" (JS.lit 9) [mkCondition "Rain" "light rain"] (JS.lit 12))
    = JS.Normal 25 /\
  clamp 25 = 25 /\
  tierParagraphs 25 = [Poor].
Proof. repeat split; reflexivity. Qed.

(** ** Substrings *)

Section Substrings.

Lemma starts_with_append (w q : string) : JS.starts_with w (w ++ q) = true.
Proof.
  induction w as [|c w IH]; simpl; [reflexivity|].
  rewrite Ascii.eqb_refl. exact IH.
Qed.

Lemma starts_with_split (w s : string) :
  JS.starts_with w s = true -> exists q, s = w ++ q.
Proof.
  revert s. induction w as [|c w IH]; intros s H; simpl in H.
  - exists s. reflexivity.
  - destruct s as [|d s]; [discriminate|].
    apply andb_true_iff in H. destruct H as [Hc Hw].
    apply Ascii.eqb_eq in Hc. subst d.
    destruct (IH s Hw) as [q ->]. exists q. reflexivity.
Qed.

Lemma includes_unfold (s w : string) :
  JS.includes s w =
  JS.starts_with w s ||
  match s with
  | EmptyString => false
  | String _ rest => JS.includes rest w
  end.
Proof. destruct s; reflexivity. Qed.

Lemma includes_spec (s w : string) :
  JS.includes s w = true <-> exists p q, s = p ++ w ++ q.
Proof.
  split.
  - induction s as [|c s IH]; simpl; intros H.
    + rewrite orb_false_r in H. apply starts_with_split in H.
      destruct H as [q Hq]. exists "", q. exact Hq.
    + apply orb_true_iff in H. destruct H as [H|H].
      * apply starts_with_split in H. destruct H as [q Hq]. exists "", q. exact Hq.
      * destruct (IH H) as (p & q & ->). exists (String c p), q. reflexivity.
  - intros (p & q & ->). induction p as [|c p IH]; simpl.
    + rewrite includes_unfold, starts_with_append. reflexivity.
    + rewrite IH. apply orb_true_r.
Qed.

Lemma toLowerCase_append (a b : string) :
  JS.toLowerCase (a ++ b) = JS.toLowerCase a ++ JS.toLowerCase b.
Proof.
  induction a as [|c a IH]; simpl; [reflexivity|]. rewrite IH. reflexivity.
Qed.

(** A split of the lowered string is the lowering of a split. *)
Lemma toLowerCase_split (s a b : string) :
  JS.toLowerCase s = a ++ b ->
  exists a' b', s = a' ++ b' /\ JS.toLowerCase a' = a /\ JS.toLowerCase b' = b.
Proof.
  revert s. induction a as [|c a IH]; intros s H.
  - exists "", s. auto.
  - destruct s as [|d s]; simpl in H; [discriminate|].
    injection H as Hc Hs. destruct (IH s Hs) as (a' & b' & -> & Ha & Hb).
    exists (String d a'), b'. simpl. rewrite Hc, Ha. auto.
Qed.

(** What the source tests, [s.toLowerCase().includes(word)], is
    [mentions] for a word in lower case. *)
Lemma includes_toLowerCase (s word : string) :
  JS.toLowerCase word = word ->
  (JS.includes (JS.toLowerCase s) word = true <-> mentions s word).
Proof.
  intros Hword. rewrite includes_spec. unfold mentions. rewrite Hword. split.
  - intros (p & q & H).
    destruct (toLowerCase_split _ _ _ H) as (p' & r & -> & _ & Hr).
    destruct (toLowerCase_split _ _ _ Hr) as (m & q' & -> & Hm & _).
    exists p', m, q'. auto.
  - intros (p & m & q & -> & Hm).
    exists (JS.toLowerCase p), (JS.toLowerCase q).
    rewrite !toLowerCase_append, Hm. reflexivity.
Qed.

End Substrings.

(** ** The scorer *)

(** C1: whenever an observation with a primary condition is stored, the
    scorer stores a score that is the running total clamped by
    max(0, min(100, total)), and that score lies between 0 and 100; the clamp
    gives a value between 0 and 100 for any total whatsoever. *)
Theorem C1_score_in_range (st : AppState) (wd : WeatherData)
    (c : Condition) (cs : list Condition) :
  weatherData st = Some wd ->
  weather wd = c :: cs ->
  (exists total score,
      runningTotal (formData st) wd = JS.Normal total /\
      score = Z.max 0 (Z.min 100 total) /\
      predictFishBite st = JS.Normal (setPrediction (Some score) st) /\
      prediction (setPrediction (Some score) st) = Some score /\
      0 <= score <= 100) /\
  (forall total, clamp total = Z.max 0 (Z.min 100 total) /\ 0 <= clamp total <= 100).
Proof.
  intros Hwd Hc. split.
  - eexists. exists (clamp (50 + waterTemperatureImpact (waterTemperature (formData st))
                              + timeImpact (timeOfDay (formData st))
                              + weatherImpact (main c)
                              + windImpact (wind_speed wd)
                              + moonImpact (moonPhase (formData st)))).
    split; [apply (runningTotal_defined _ _ c cs Hc)|].
    split; [reflexivity|].
    split.
    + unfold predictFishBite. rewrite Hwd.
      rewrite (runningTotal_defined _ _ c cs Hc). reflexivity.
    + split; [reflexivity | apply clamp_range].
  - intros total. split; [reflexivity | apply clamp_range].
Qed.

Lemma C1_score_in_range_witness :
  weatherData scenarioA = Some observationA /\
  weather observationA = [mkCondition "Clear" "clear sky"] /\
  exists total score,
    runningTotal (formData scenarioA) observationA = JS.Normal total /\
    score = Z.max 0 (Z.min 100 total) /\
    predictFishBite scenarioA = JS.Normal (setPrediction (Some score) scenarioA) /\
    prediction (setPrediction (Some score) scenarioA) = Some score /\
    0 <= score <= 100.
Proof.
  split; [reflexivity|]. split; [reflexivity|].
  apply (C1_score_in_range scenarioA observationA
           (mkCondition "Clear" "clear sky") []); reflexivity.
Defined.

(** C2: with no observation stored, the scorer returns with the message
    "Please fetch weather data first" and leaves the stored prediction, and
    everything but the message, as it was. *)
Theorem C2_missing_observation (st : AppState) :
  weatherData st = None ->
  exists st',
    predictFishBite st = JS.Normal st' /\
    error st' = Some "Please fetch weather data first" /\
    prediction st' = prediction st /\
    weatherData st' = None /\
    formData st' = formData st /\
    loading st' = loading st /\
    geoLoading st' = geoLoading st.
Proof.
  intros Hwd. exists (setError (Some "Please fetch weather data first") st).
  unfold predictFishBite. rewrite Hwd. simpl. repeat split; auto.
Qed.

Lemma C2_missing_observation_witness :
  weatherData (setPrediction (Some 85) initialState) = None /\
  exists st',
    predictFishBite (setPrediction (Some 85) initialState) = JS.Normal st' /\
    error st' = Some "Please fetch weather data first" /\
    prediction st' = Some 85.
Proof.
  split; [reflexivity|].
  destruct (C2_missing_observation (setPrediction (Some 85) initialState) eq_refl)
    as (st' & Hrun & Herr & Hpred & _).
  exists st'. repeat split; assumption.
Defined.

(** ** The resolver and the form *)

(** C3, as stated, fails: a successful fetch by name of an observation at
    4.5 degrees replaces the water temperature 20 of the form by 5. *)
Lemma C3_counterexample :
  waterTemperature (formData (fetchWeatherData (Fulfilled observationA) typedOslo))
    = JS.Fin (inject_Z 5) /\
  waterTemperature (formData typedOslo) = JS.Fin (inject_Z 20) /\
  waterTemperature (formData (fetchWeatherData (Fulfilled observationA) typedOslo))
    <> waterTemperature (formData typedOslo).
Proof.
  split; [reflexivity|]. split; [reflexivity|].
  vm_compute. intros H. discriminate H.
Qed.

(** C3, amended: a successful resolution, by name or by coordinates, leaves
    the time of day, the moon phase and the stored prediction as they were and
    stores the observation; it overwrites the water temperature with the
    ambient temperature rounded to the nearest integer, and by coordinates it
    also overwrites the location with the resolved place name (by name the
    location is kept). *)
Theorem C3_resolution_frame (data : WeatherData) (st : AppState) :
  (let st' := fetchWeatherData_settled (Fulfilled data) st in
   timeOfDay (formData st') = timeOfDay (formData st) /\
   moonPhase (formData st') = moonPhase (formData st) /\
   location (formData st') = location (formData st) /\
   waterTemperature (formData st') = JS.round (main_temp data) /\
   weatherData st' = Some data /\
   prediction st' = prediction st) /\
  (let st' := fetchWeatherByCoords_settled (Fulfilled data) st in
   timeOfDay (formData st') = timeOfDay (formData st) /\
   moonPhase (formData st') = moonPhase (formData st) /\
   location (formData st') = name data /\
   waterTemperature (formData st') = JS.round (main_temp data) /\
   weatherData st' = Some data /\
   prediction st' = prediction st).
Proof.
  split; cbv zeta; simpl; repeat split; reflexivity.
Qed.

(** ** The adjustments *)

(** C4: the weather adjustment goes by the first of "clear", "clouds" and
    "rain" that occurs in the condition category, letter case aside: +10 for
    "clear", else +5 for "clouds", else -10 for "rain", else nothing; a
    category with both "clear" and "rain" gets +10. *)
Theorem C4_weather_first_match (category : string) :
  (mentions category "clear" -> weatherImpact category = 10) /\
  (~ mentions category "clear" -> mentions category "clouds" ->
   weatherImpact category = 5) /\
  (~ mentions category "clear" -> ~ mentions category "clouds" ->
   mentions category "rain" -> weatherImpact category = -10) /\
  (~ mentions category "clear" -> ~ mentions category "clouds" ->
   ~ mentions category "rain" -> weatherImpact category = 0) /\
  (mentions category "clear" -> mentions category "rain" ->
   weatherImpact category = 10).
Proof.
  pose proof (includes_toLowerCase category "clear" eq_refl) as Hclear.
  pose proof (includes_toLowerCase category "clouds" eq_refl) as Hclouds.
  pose proof (includes_toLowerCase category "rain" eq_refl) as Hrain.
  unfold weatherImpact. cbv zeta.
  destruct (JS.includes (JS.toLowerCase category) "clear");
  destruct (JS.includes (JS.toLowerCase category) "clouds");
  destruct (JS.includes (JS.toLowerCase category) "rain");
  repeat split; intros; try reflexivity; exfalso;
  repeat match goal with
         | H : true = true <-> _ |- _ => apply proj1 in H; specialize (H eq_refl)
         | H : false = true <-> _ |- _ => apply proj2 in H
         end;
  try contradiction;
  match goal with
  | H : ?P -> false = true, HP : ?P |- _ => discriminate (H HP)
  end.
Qed.

Lemma C4_weather_first_match_witness :
  mentions "Rain, then CLEAR" "clear" /\
  mentions "Rain, then CLEAR" "rain" /\
  weatherImpact "Rain, then CLEAR" = 10.
Proof.
  assert (Hclear : mentions "Rain, then CLEAR" "clear")
    by (exists "Rain, then ", "CLEAR", ""; split; reflexivity).
  assert (Hrain : mentions "Rain, then CLEAR" "rain")
    by (exists "", "Rain", ", then CLEAR"; split; reflexivity).
  split; [exact Hclear|]. split; [exact Hrain|].
  exact (proj2 (proj2 (proj2 (proj2 (C4_weather_first_match "Rain, then CLEAR"))))
           Hclear Hrain).
Defined.

(** C5: for every finite wind speed [w], so for every non-negative one, the
    wind adjustment is +10 when [w < 5], -10 when [w > 10] and nothing in
    between; at 5 and at 10 it is nothing. *)
Theorem C5_wind_bands (w : Q) :
  ((w < 5)%Q -> windImpact (JS.Fin w) = 10) /\
  ((10 < w)%Q -> windImpact (JS.Fin w) = -10) /\
  ((5 <= w <= 10)%Q -> windImpact (JS.Fin w) = 0) /\
  windImpact (JS.lit 5) = 0 /\
  windImpact (JS.lit 10) = 0.
Proof.
  pose proof (lt_Fin w (inject_Z 5)) as HL.
  pose proof (gt_Fin w (inject_Z 10)) as HG.
  change (inject_Z 5) with 5%Q in HL. change (inject_Z 10) with 10%Q in HG.
  unfold windImpact, JS.lit.
  change (inject_Z 5) with 5%Q. change (inject_Z 10) with 10%Q.
  destruct (JS.lt (JS.Fin w) (JS.Fin 5)) eqn:EL;
  destruct (JS.gt (JS.Fin w) (JS.Fin 10)) eqn:EG;
  repeat split; intros; try reflexivity; exfalso;
  repeat match goal with
         | H : true = true <-> _ |- _ => apply proj1 in H; specialize (H eq_refl)
         | H : false = true <-> ?P |- _ =>
             assert (~ P) by (let X := fresh in intro X; apply H in X; discriminate X);
             clear H
         end;
  lra.
Qed.

Lemma C5_wind_bands_witness :
  (0 <= 7 # 2)%Q /\ (7 # 2 < 5)%Q /\ windImpact (JS.Fin (7 # 2)) = 10.
Proof.
  split; [lra|]. split; [lra|].
  apply (proj1 (C5_wind_bands (7 # 2))). lra.
Defined.

(** ** The tier *)

(** C6: for every score, so for every score from 0 to 100, exactly one
    paragraph is shown: "excellent" iff the score is above 70, "moderate" iff
    it is above 40 and at most 70, "poor" iff it is at most 40; 70 is
    moderate, 71 excellent, 40 poor and 41 moderate. *)
Theorem C6_tier_thresholds (s : Z) :
  (tierParagraphs s = [Excellent] <-> s > 70) /\
  (tierParagraphs s = [Moderate] <-> 40 < s <= 70) /\
  (tierParagraphs s = [Poor] <-> s <= 40) /\
  tierParagraphs 70 = [Moderate] /\
  tierParagraphs 71 = [Excellent] /\
  tierParagraphs 40 = [Poor] /\
  tierParagraphs 41 = [Moderate].
Proof.
  unfold tierParagraphs.
  destruct (Z.gtb_spec s 70); destruct (Z.gtb_spec s 40);
  destruct (Z.leb_spec s 70); destruct (Z.leb_spec s 40);
  try lia; simpl;
  repeat split; intros; try reflexivity; try discriminate; lia.
Qed.

(** C7: with water temperature 20, time "08:00", a full moon, the condition
    category "Clear" and wind speed 3, whatever the rest of the state, the
    five adjustments are 20, 15, 10, 10 and 10, the running total is 115, the
    stored score is 100 and the tier is "excellent". *)
Theorem C7_scenario_A (loc place descr : string) (temp : JS.number)
    (others : list Condition) (before : option Z) (busy geo : bool)
    (msg : option string) :
  let wd := mkWeatherData place temp (mkCondition "Clear" descr :: others) (JS.lit 3) in
  let st := mkAppState (mkFormData loc (JS.lit 20) "08:00" "full")
                       (Some wd) before busy msg geo in
  waterTemperatureImpact (JS.lit 20) = 20 /\
  timeImpact "08:00" = 15 /\
  weatherImpact "Clear" = 10 /\
  windImpact (JS.lit 3) = 10 /\
  moonImpact "full" = 10 /\
  runningTotal (formData st) wd = JS.Normal 115 /\
  50 + 20 + 15 + 10 + 10 + 10 = 115 /\
  clamp 115 = 100 /\
  predictFishBite st = JS.Normal (setPrediction (Some 100) st) /\
  predictionResult (setPrediction (Some 100) st) = Some (100, [Excellent]).
Proof.
  cbv zeta. repeat split; reflexivity.
Qed.

(** ** Errors and busy flags *)

(** C8: with an empty location, [fetchWeatherData] sends no request and
    returns with the message "Please enter a location"; the stored
    observation, the prediction, the form and the busy flags are as before,
    however the request would have settled. *)
Theorem C8_empty_location (st : AppState) :
  location (formData st) = "" ->
  fetchWeatherData_request st = (setError (Some "Please enter a location") st, None) /\
  forall r,
    let st' := fetchWeatherData r st in
    error st' = Some "Please enter a location" /\
    weatherData st' = weatherData st /\
    prediction st' = prediction st /\
    formData st' = formData st /\
    loading st' = loading st /\
    geoLoading st' = geoLoading st.
Proof.
  intros Hloc.
  assert (Hreq : fetchWeatherData_request st
                 = (setError (Some "Please enter a location") st, None)).
  { unfold fetchWeatherData_request. rewrite Hloc. reflexivity. }
  split; [exact Hreq|].
  intros r. unfold fetchWeatherData. rewrite Hreq. cbv zeta. simpl.
  repeat split; reflexivity.
Qed.

Lemma C8_empty_location_witness :
  location (formData scenarioA) = "" /\
  fetchWeatherData_request scenarioA
    = (setError (Some "Please enter a location") scenarioA, None) /\
  weatherData (fetchWeatherData Rejected scenarioA) = Some observationA.
Proof.
  split; [reflexivity|].
  destruct (C8_empty_location scenarioA eq_refl) as [Hreq Hrun].
  split; [exact Hreq|].
  destruct (Hrun Rejected) as (_ & Hwd & _). exact Hwd.
Defined.

(** C9: however the request settles, [fetchWeatherData] ends with [loading]
    false and [fetchWeatherByCoords] with [loading] and [geoLoading] false,
    from any state reached in between; the error callback of the geolocation
    ends with [geoLoading] false for every code; a whole geolocation that was
    started ends with [geoLoading] false whatever the position and the
    provider answer (where the browser has no geolocation the flag is never
    set and stays as it was); a whole fetch by name ends with [loading] false unless
    the location was empty, when no request was sent and [loading] was never
    set; and the permission-denied code gives the message
    "User denied the request for Geolocation." with [geoLoading] false. *)
Theorem C9_busy_flags_cleared (st : AppState) (r : settled) :
  loading (fetchWeatherData_settled r st) = false /\
  (loading (fetchWeatherByCoords_settled r st) = false /\
   geoLoading (fetchWeatherByCoords_settled r st) = false) /\
  (forall code, geoLoading (handleGeolocate_error code st) = false) /\
  (forall l, geoLoading (handleGeolocate true l r st) = false) /\
  (forall l, geoLoading (handleGeolocate false l r st) = geoLoading st) /\
  loading (fetchWeatherData r st)
    = (if String.eqb (location (formData st)) "" then loading st else false) /\
  (error (handleGeolocate_error PERMISSION_DENIED st)
     = Some "User denied the request for Geolocation." /\
   geoLoading (handleGeolocate_error PERMISSION_DENIED st) = false /\
   forall answer,
     error (handleGeolocate true (PositionError PERMISSION_DENIED) answer st)
       = Some "User denied the request for Geolocation." /\
     geoLoading (handleGeolocate true (PositionError PERMISSION_DENIED) answer st)
       = false).
Proof.
  repeat match goal with |- _ /\ _ => split end.
  - destruct r; reflexivity.
  - destruct r; reflexivity.
  - destruct r; reflexivity.
  - intros code. reflexivity.
  - intros [latitude longitude|code]; destruct r; reflexivity.
  - intros l. reflexivity.
  - unfold fetchWeatherData, fetchWeatherData_request.
    destruct (String.eqb (location (formData st)) ""); destruct r; reflexivity.
  - reflexivity.
  - reflexivity.
  - intros answer. split; reflexivity.
Qed.

(** C10, as stated, fails for a provider failure that is a malformed
    response: a body with an empty [weather] array is fulfilled, so it is
    stored in place of the observation held before, by name and by
    coordinates; the observation is not reset to absent, and the scorer run
    next throws instead of returning with "Please fetch weather data first". *)
Lemma C10_counterexample :
  weatherData (fetchWeatherData_settled (Fulfilled malformedBody) scenarioA)
    = Some malformedBody /\
  weatherData (fetchWeatherByCoords_settled (Fulfilled malformedBody) scenarioA)
    = Some malformedBody /\
  weatherData (fetchWeatherData_settled (Fulfilled malformedBody) scenarioA) <> None /\
  predictFishBite (fetchWeatherData_settled (Fulfilled malformedBody) scenarioA)
    = JS.Throw JS.TypeError /\
  predictFishBite (fetchWeatherByCoords_settled (Fulfilled malformedBody) scenarioA)
    = JS.Throw JS.TypeError /\
  predictFishBite (fetchWeatherData_settled (Fulfilled malformedBody) scenarioA)
    <> JS.Normal (setError (Some "Please fetch weather data first")
                    (fetchWeatherData_settled (Fulfilled malformedBody) scenarioA)).
Proof.
  repeat match goal with |- _ /\ _ => split end;
    try reflexivity; intros H; discriminate H.
Qed.

(** C10, amended: when the request is rejected, by name or by coordinates,
    the stored observation is reset to absent whatever it was, and the scorer
    run on the state that results returns with "Please fetch weather data
    first" and leaves the prediction as it was; a fulfilled response is
    stored as it is, whatever its body. *)
Theorem C10_failure_resets_observation (st : AppState) :
  (let st1 := fetchWeatherData_settled Rejected st in
   weatherData st1 = None /\
   error st1 = Some "Could not fetch weather data. Please check the location." /\
   predictFishBite st1
     = JS.Normal (setError (Some "Please fetch weather data first") st1) /\
   prediction (setError (Some "Please fetch weather data first") st1)
     = prediction st) /\
  (let st1 := fetchWeatherByCoords_settled Rejected st in
   weatherData st1 = None /\
   error st1 = Some "Could not fetch weather data for your location." /\
   predictFishBite st1
     = JS.Normal (setError (Some "Please fetch weather data first") st1) /\
   prediction (setError (Some "Please fetch weather data first") st1)
     = prediction st) /\
  (forall data,
     weatherData (fetchWeatherData_settled (Fulfilled data) st) = Some data /\
     weatherData (fetchWeatherByCoords_settled (Fulfilled data) st) = Some data).
Proof.
  split; [|split]; cbv zeta; repeat split; reflexivity.
Qed.

(** ** More on the scorer *)

(** X1: the lower bound of the clamp is never reached.  With an observation
    that has a first condition, the running total lies between 25 and 115,
    and the score stored is the smaller of 100 and the total, between 25 and
    100. *)
Theorem score_floor (st : AppState) (wd : WeatherData)
    (c : Condition) (cs : list Condition) :
  weatherData st = Some wd ->
  weather wd = c :: cs ->
  exists total,
    runningTotal (formData st) wd = JS.Normal total /\
    25 <= total <= 115 /\
    predictFishBite st = JS.Normal (setPrediction (Some (Z.min 100 total)) st) /\
    25 <= Z.min 100 total <= 100.
Proof.
  intros Hwd Hc.
  pose proof (runningTotal_defined (formData st) wd c cs Hc) as Htotal.
  pose proof (runningTotal_bounds (formData st) wd _ Htotal) as Hb.
  remember (50 + waterTemperatureImpact (waterTemperature (formData st))
               + timeImpact (timeOfDay (formData st)) + weatherImpact (main c)
               + windImpact (wind_speed wd) + moonImpact (moonPhase (formData st)))
    as total eqn:Etotal.
  exists total. split; [exact Htotal|]. split; [exact Hb|]. split.
  - unfold predictFishBite. rewrite Hwd, Htotal. unfold JS.bind.
    replace (clamp total) with (Z.min 100 total); [reflexivity|].
    unfold clamp, JS.max, JS.min. lia.
  - lia.
Qed.

Lemma score_floor_witness :
  exists total,
    runningTotal (formData scenarioA) observationA = JS.Normal total /\
    25 <= total <= 115 /\
    predictFishBite scenarioA
      = JS.Normal (setPrediction (Some (Z.min 100 total)) scenarioA) /\
    25 <= Z.min 100 total <= 100.
Proof.
  exact (score_floor scenarioA observationA (mkCondition "Clear" "clear sky") []
           eq_refl eq_refl).
Defined.

(** X3: when the scorer returns, the form, the observation and both busy
    flags are as before.  Without an observation it sets the message and
    keeps the prediction; with one it sets the prediction and keeps whatever
    message was there. *)
Theorem predictFishBite_frame (st st' : AppState) :
  predictFishBite st = JS.Normal st' ->
  formData st' = formData st /\
  weatherData st' = weatherData st /\
  loading st' = loading st /\
  geoLoading st' = geoLoading st /\
  ((weatherData st = None /\
    prediction st' = prediction st /\
    error st' = Some "Please fetch weather data first") \/
   (weatherData st <> None /\
    error st' = error st /\
    exists score, prediction st' = Some score)).
Proof.
  unfold predictFishBite. destruct (weatherData st) as [wd|] eqn:Hwd.
  - destruct (runningTotal (formData st) wd) as [total|e]; simpl; [|discriminate].
    intros H. assert (Hst : setPrediction (Some (clamp total)) st = st') by congruence.
    subst st'. simpl. repeat split; auto.
    right. repeat split; [discriminate | eauto].
  - intros H.
    assert (Hst : setError (Some "Please fetch weather data first") st = st')
      by congruence.
    subst st'. simpl. repeat split; auto.
Qed.

Lemma predictFishBite_frame_witness :
  let st := setError (Some "Please enter a location") scenarioA in
  predictFishBite st = JS.Normal (setPrediction (Some 100) st) /\
  error (setPrediction (Some 100) st) = Some "Please enter a location".
Proof.
  cbv zeta. split; [reflexivity|].
  destruct (predictFishBite_frame
              (setError (Some "Please enter a location") scenarioA)
              (setPrediction (Some 100) (setError (Some "Please enter a location") scenarioA))
              eq_refl) as (_ & _ & _ & _ & [(H & _)|(_ & H & _)]).
  - discriminate H.
  - exact H.
Defined.

(** X4: running the scorer again on the state it returned changes nothing:
    the score does not depend on the prediction or the message stored. *)
Theorem predictFishBite_idempotent (st st' : AppState) :
  predictFishBite st = JS.Normal st' ->
  predictFishBite st' = JS.Normal st'.
Proof.
  unfold predictFishBite. destruct (weatherData st) as [wd|] eqn:Hwd.
  - destruct (runningTotal (formData st) wd) as [total|e] eqn:Ht; simpl; [|discriminate].
    intros H. assert (Hst : setPrediction (Some (clamp total)) st = st') by congruence.
    subst st'. simpl. rewrite Hwd, Ht. reflexivity.
  - intros H.
    assert (Hst : setError (Some "Please fetch weather data first") st = st')
      by congruence.
    subst st'. simpl. rewrite Hwd. reflexivity.
Qed.

Lemma predictFishBite_idempotent_witness :
  predictFishBite scenarioA = JS.Normal (setPrediction (Some 100) scenarioA) /\
  predictFishBite (setPrediction (Some 100) scenarioA)
    = JS.Normal (setPrediction (Some 100) scenarioA).
Proof.
  split; [reflexivity|].
  exact (predictFishBite_idempotent scenarioA (setPrediction (Some 100) scenarioA) eq_refl).
Defined.

(** X5: the water temperature adds 20 exactly from 18 to 24, both included;
    below 18, above 24, and for NaN and the infinities it adds nothing. *)
Theorem waterTemperature_band (t : Q) :
  ((18 <= t <= 24)%Q -> waterTemperatureImpact (JS.Fin t) = 20) /\
  ((t < 18)%Q \/ (24 < t)%Q -> waterTemperatureImpact (JS.Fin t) = 0) /\
  waterTemperatureImpact JS.NaN = 0 /\
  waterTemperatureImpact JS.PosInf = 0 /\
  waterTemperatureImpact JS.NegInf = 0.
Proof.
  pose proof (ge_Fin t (inject_Z 18)) as HG.
  pose proof (le_Fin t (inject_Z 24)) as HL.
  change (inject_Z 18) with 18%Q in HG. change (inject_Z 24) with 24%Q in HL.
  unfold waterTemperatureImpact, JS.lit.
  change (inject_Z 18) with 18%Q. change (inject_Z 24) with 24%Q.
  destruct (JS.ge (JS.Fin t) (JS.Fin 18)) eqn:EG;
  destruct (JS.le (JS.Fin t) (JS.Fin 24)) eqn:EL;
  simpl; repeat split; intros; try reflexivity; exfalso;
  repeat match goal with
         | H : true = true <-> _ |- _ => apply proj1 in H; specialize (H eq_refl)
         | H : false = true <-> ?P |- _ =>
             assert (~ P) by (let X := fresh in intro X; apply H in X; discriminate X);
             clear H
         end;
  lra.
Qed.

Lemma waterTemperature_band_witness :
  (18 <= 49 # 2)%Q /\ (24 < 49 # 2)%Q /\ waterTemperatureImpact (JS.Fin (49 # 2)) = 0.
Proof.
  split; [lra|]. split; [lra|].
  apply (proj1 (proj2 (waterTemperature_band (49 # 2)))). right. lra.
Defined.

(** ** The hour *)

Lemma split_lacks (sep : ascii) (h : string) :
  lacks sep h = true -> JS.split sep h = [h].
Proof.
  induction h as [|c h IH]; simpl; intros H; [reflexivity|].
  apply andb_true_iff in H. destruct H as [Hc Hh].
  apply negb_true_iff in Hc. rewrite Hc, (IH Hh). reflexivity.
Qed.

Lemma split_first (sep : ascii) (h rest : string) :
  lacks sep h = true ->
  JS.split sep (h ++ String sep rest) = h :: JS.split sep rest.
Proof.
  induction h as [|c h IH]; simpl; intros H.
  - rewrite Ascii.eqb_refl. reflexivity.
  - apply andb_true_iff in H. destruct H as [Hc Hh].
    apply negb_true_iff in Hc. rewrite Hc, (IH Hh). reflexivity.
Qed.

(** X6: only what stands before the first colon of the time counts: the hour
    of [h ++ ":" ++ rest] is [parseInt h] whatever [rest] is, and a time
    without a colon is parsed whole. *)
Theorem hourOf_before_colon (h : string) :
  lacks ":" h = true ->
  (forall rest, hourOf (h ++ String ":" rest) = JS.parseInt h) /\
  hourOf h = JS.parseInt h.
Proof.
  intros Hh. split.
  - intros rest. unfold hourOf. rewrite (split_first _ _ _ Hh). reflexivity.
  - unfold hourOf. rewrite (split_lacks _ _ Hh). reflexivity.
Qed.

Lemma hourOf_before_colon_witness :
  hourOf ("17" ++ String ":" "45") = JS.lit 17 /\ hourOf "17" = JS.lit 17.
Proof.
  destruct (hourOf_before_colon "17" eq_refl) as [Hrest Hwhole].
  split; [rewrite Hrest | rewrite Hwhole]; reflexivity.
Defined.

(** X7: for a time that starts with two digits and a colon, the time of day
    adds 15 exactly when the hour is from 6 to 10 or from 16 to 19, and
    nothing otherwise, whatever follows the colon; the two bonuses never add
    up to 30.  A time left empty adds nothing. *)
Theorem timeImpact_two_digits (a b : nat) (rest : string) :
  (a <= 9)%nat -> (b <= 9)%nat ->
  let hour := Z.of_nat (10 * a + b) in
  timeImpact (String (digit a) (String (digit b) (String ":" rest)))
    = (if ((6 <=? hour) && (hour <=? 10)) || ((16 <=? hour) && (hour <=? 19))
       then 15 else 0) /\
  timeImpact "" = 0.
Proof.
  intros Ha Hb.
  do 10 (destruct a as [|a]; [do 10 (destruct b as [|b]; [split; reflexivity|]); lia|]).
  lia.
Qed.

Lemma timeImpact_two_digits_witness :
  timeImpact "19:59" = 15 /\ timeImpact "20:00" = 0.
Proof.
  split.
  - refine (proj1 (timeImpact_two_digits 1 9 "59" _ _)); lia.
  - refine (proj1 (timeImpact_two_digits 2 0 "00" _ _)); lia.
Defined.

(** X8: the moon phase is matched exactly, letter case included: only
    "full" adds 10 and only "new" takes 5; so "Full" adds nothing, where the
    weather is matched in any letter case. *)
Theorem moonImpact_exact (m : string) :
  (moonImpact m = 10 <-> m = "full") /\
  (moonImpact m = -5 <-> m = "new") /\
  (moonImpact m = 0 <-> m <> "full" /\ m <> "new") /\
  moonImpact "Full" = 0 /\
  weatherImpact "CLEAR" = 10.
Proof.
  unfold moonImpact.
  destruct (String.eqb_spec m "full") as [->|Hf]; simpl.
  - repeat split; intros; try reflexivity; try discriminate.
    destruct H as [H _]. contradiction.
  - destruct (String.eqb_spec m "new") as [->|Hn].
    + repeat split; intros; try reflexivity; try discriminate.
      destruct H as [_ H]. contradiction.
    + repeat split; intros; try reflexivity; try discriminate;
        try contradiction; assumption.
Qed.

(** X9: the score depends on nothing but the water temperature, the time,
    the moon phase, the category of the first condition and the wind speed:
    two forms and two observations that agree on these give the same total,
    whatever the location, the place name, the ambient temperature, the
    descriptions and the conditions after the first. *)
Theorem runningTotal_inputs (fd fd' : FormData) (wd wd' : WeatherData) :
  waterTemperature fd = waterTemperature fd' ->
  timeOfDay fd = timeOfDay fd' ->
  moonPhase fd = moonPhase fd' ->
  option_map main (nth_error (weather wd) 0)
    = option_map main (nth_error (weather wd') 0) ->
  wind_speed wd = wind_speed wd' ->
  runningTotal fd wd = runningTotal fd' wd'.
Proof.
  intros Ht Hd Hm Hc Hw. unfold runningTotal, JS.member.
  rewrite Ht, Hd, Hm, Hw.
  destruct (nth_error (weather wd) 0) as [c|];
  destruct (nth_error (weather wd') 0) as [c'|]; simpl in Hc; try discriminate.
  - assert (Hmain : main c = main c') by congruence.
    unfold JS.bind. rewrite Hmain. reflexivity.
  - reflexivity.
Qed.

Lemma runningTotal_inputs_witness :
  runningTotal (mkFormData "Oslo" (JS.lit 20) "08:00" "full") observationA
  = runningTotal (mkFormData "Bergen" (JS.lit 20) "08:00" "full")
      (mkWeatherData "Bergen" (JS.lit 30)
         [mkCondition "Clear" "no clouds"; mkCondition "Rain" "drizzle"] (JS.lit 3)).
Proof.
  apply runningTotal_inputs; reflexivity.
Defined.

(** ** The resolver and the scorer together *)

Lemma Qfloor_bounds (x : Q) (lo hi : Z) :
  lo <= Qfloor x <= hi <-> (inject_Z lo <= x /\ x < inject_Z (hi + 1))%Q.
Proof.
  pose proof (Qfloor_le x) as Hle. pose proof (Qlt_floor x) as Hlt.
  split; intros [H1 H2]; split.
  - apply Qle_trans with (inject_Z (Qfloor x)); [|exact Hle].
    rewrite <- Zle_Qle. exact H1.
  - apply Qlt_le_trans with (inject_Z (Qfloor x + 1)); [exact Hlt|].
    rewrite <- Zle_Qle. lia.
  - apply Qfloor_resp_le in H1. rewrite Qfloor_Z in H1. exact H1.
  - destruct (Z_lt_le_dec hi (Qfloor x)) as [Hgt|]; [|assumption].
    exfalso. apply (Qlt_irrefl x).
    apply Qlt_le_trans with (inject_Z (hi + 1)); [exact H2|].
    apply Qle_trans with (inject_Z (Qfloor x)); [|exact Hle].
    rewrite <- Zle_Qle. lia.
Qed.

Lemma waterTemperatureImpact_integer (z : Z) :
  waterTemperatureImpact (JS.lit z) = 20 <-> 18 <= z <= 24.
Proof.
  pose proof (ge_Fin (inject_Z z) (inject_Z 18)) as HG.
  pose proof (le_Fin (inject_Z z) (inject_Z 24)) as HL.
  rewrite <- Zle_Qle in HG, HL.
  unfold waterTemperatureImpact, JS.lit.
  destruct (JS.ge (JS.Fin (inject_Z z)) (JS.Fin (inject_Z 18)));
  destruct (JS.le (JS.Fin (inject_Z z)) (JS.Fin (inject_Z 24))); simpl;
  split; intros H; try reflexivity; try discriminate; try tauto;
  exfalso; destruct H as [H18 H24];
  [apply HL in H24 | apply HG in H18 | apply HG in H18]; discriminate.
Qed.

(** The bonus for a water temperature that is a rounded ambient
    temperature. *)
Lemma waterTemperatureImpact_round (temp : Q) :
  ((35 # 2 <= temp /\ temp < 49 # 2)%Q ->
   waterTemperatureImpact (JS.round (JS.Fin temp)) = 20) /\
  ((temp < 35 # 2 \/ 49 # 2 <= temp)%Q ->
   waterTemperatureImpact (JS.round (JS.Fin temp)) = 0).
Proof.
  assert (H : waterTemperatureImpact (JS.round (JS.Fin temp)) = 20
              <-> (35 # 2 <= temp /\ temp < 49 # 2)%Q).
  { unfold JS.round. change (JS.Fin (inject_Z ?z)) with (JS.lit z).
    rewrite waterTemperatureImpact_integer, Qfloor_bounds.
    change (inject_Z 18) with 18%Q. change (inject_Z (24 + 1)) with 25%Q.
    split; intros [H1 H2]; split; lra. }
  split; intros Hband.
  - apply H. exact Hband.
  - destruct (waterTemperatureImpact_cases (JS.round (JS.Fin temp))) as [H0|H20];
      [exact H0|].
    apply H in H20. exfalso. destruct H20 as [H1 H2]. destruct Hband; lra.
Qed.

(** X10: a successful resolution, by name or by coordinates, stores the
    ambient temperature rounded, so the scorer run next on an observation
    that has a first condition counts the water temperature bonus exactly for
    an ambient temperature from 17.5 up to, not including, 24.5: the running
    total is 50 + 20 and the other four adjustments in that band, 50 + 0 and
    the other four outside it, and the score stored is that total clamped. *)
Theorem fetched_temperature_band (data : WeatherData) (c : Condition)
    (cs : list Condition) (st st1 : AppState) (temp : Q) :
  main_temp data = JS.Fin temp ->
  weather data = c :: cs ->
  st1 = fetchWeatherData_settled (Fulfilled data) st \/
  st1 = fetchWeatherByCoords_settled (Fulfilled data) st ->
  ((35 # 2 <= temp /\ temp < 49 # 2)%Q ->
   runningTotal (formData st1) data
     = JS.Normal (50 + 20 + timeImpact (timeOfDay (formData st))
                     + weatherImpact (main c) + windImpact (wind_speed data)
                     + moonImpact (moonPhase (formData st))) /\
   predictFishBite st1
     = JS.Normal (setPrediction
                    (Some (clamp (50 + 20 + timeImpact (timeOfDay (formData st))
                                     + weatherImpact (main c)
                                     + windImpact (wind_speed data)
                                     + moonImpact (moonPhase (formData st)))))
                    st1)) /\
  ((temp < 35 # 2 \/ 49 # 2 <= temp)%Q ->
   runningTotal (formData st1) data
     = JS.Normal (50 + 0 + timeImpact (timeOfDay (formData st))
                     + weatherImpact (main c) + windImpact (wind_speed data)
                     + moonImpact (moonPhase (formData st))) /\
   predictFishBite st1
     = JS.Normal (setPrediction
                    (Some (clamp (50 + 0 + timeImpact (timeOfDay (formData st))
                                     + weatherImpact (main c)
                                     + windImpact (wind_speed data)
                                     + moonImpact (moonPhase (formData st)))))
                    st1)).
Proof.
  intros Htemp Hc Hst1.
  assert (Hwd : weatherData st1 = Some data)
    by (destruct Hst1; subst st1; reflexivity).
  assert (Hwt : waterTemperature (formData st1) = JS.round (JS.Fin temp))
    by (destruct Hst1; subst st1; simpl; rewrite Htemp; reflexivity).
  assert (Htime : timeOfDay (formData st1) = timeOfDay (formData st))
    by (destruct Hst1; subst st1; reflexivity).
  assert (Hmoon : moonPhase (formData st1) = moonPhase (formData st))
    by (destruct Hst1; subst st1; reflexivity).
  pose proof (runningTotal_defined (formData st1) data c cs Hc) as Ht.
  rewrite Hwt, Htime, Hmoon in Ht.
  destruct (waterTemperatureImpact_round temp) as [Hin Hout].
  split; intros Hband;
    [rewrite (Hin Hband) in Ht | rewrite (Hout Hband) in Ht];
    (split; [exact Ht|]);
    unfold predictFishBite; rewrite Hwd, Ht; reflexivity.
Qed.

Lemma fetched_temperature_band_witness :
  (35 # 2 <= 35 # 2 /\ 35 # 2 < 49 # 2)%Q /\
  runningTotal (formData (fetchWeatherData_settled (Fulfilled observationB) typedOslo))
               observationB = JS.Normal 115 /\
  predictFishBite (fetchWeatherData_settled (Fulfilled observationB) typedOslo)
    = JS.Normal (setPrediction (Some 100)
                   (fetchWeatherData_settled (Fulfilled observationB) typedOslo)).
Proof.
  assert (Hband : (35 # 2 <= 35 # 2 /\ 35 # 2 < 49 # 2)%Q) by (split; lra).
  split; [exact Hband|].
  exact (proj1 (fetched_temperature_band observationB
                  (mkCondition "Clear" "clear sky") [] typedOslo
                  (fetchWeatherData_settled (Fulfilled observationB) typedOslo)
                  (35 # 2) eq_refl eq_refl (or_introl eq_refl))
           Hband).
Defined.

(** X11: a fetch by name with a location typed in sends that location as it
    is, and once settled leaves [loading] false and the prediction and
    [geoLoading] as they were; fulfilled, it stores the observation and no
    message is left, whatever message was there before; rejected, it sets
    its message, drops the observation and leaves the form as it was. *)
Theorem fetchWeatherData_run (st : AppState) (r : settled) :
  location (formData st) <> "" ->
  fetchWeatherData_request st
    = (setError None (setLoading true st), Some (GetByName (location (formData st)))) /\
  loading (fetchWeatherData r st) = false /\
  geoLoading (fetchWeatherData r st) = geoLoading st /\
  prediction (fetchWeatherData r st) = prediction st /\
  match r with
  | Fulfilled data =>
      error (fetchWeatherData r st) = None /\
      weatherData (fetchWeatherData r st) = Some data
  | Rejected =>
      error (fetchWeatherData r st)
        = Some "Could not fetch weather data. Please check the location." /\
      weatherData (fetchWeatherData r st) = None /\
      formData (fetchWeatherData r st) = formData st
  end.
Proof.
  intros Hloc.
  assert (Hreq : fetchWeatherData_request st
                 = (setError None (setLoading true st),
                    Some (GetByName (location (formData st))))).
  { unfold fetchWeatherData_request.
    destruct (String.eqb_spec (location (formData st)) ""); [contradiction|reflexivity]. }
  split; [exact Hreq|].
  unfold fetchWeatherData. rewrite Hreq.
  destruct r; simpl; repeat split; reflexivity.
Qed.

Lemma fetchWeatherData_run_witness :
  error (fetchWeatherData (Fulfilled observationA)
           (setError (Some "Please enter a location") typedOslo)) = None.
Proof.
  assert (Hloc : location (formData (setError (Some "Please enter a location") typedOslo))
                 <> "") by discriminate.
  destruct (fetchWeatherData_run (setError (Some "Please enter a location") typedOslo)
              (Fulfilled observationA) Hloc) as (_ & _ & _ & _ & Herr & _).
  exact Herr.
Defined.

(** X12: a geolocation error, unlike a rejected request, keeps the stored
    observation: the error callback leaves the form, the observation, the
    prediction and [loading] as they were, so a score that could be computed
    before can be computed after, with the same value.  A code other than 1,
    2 and 3 gives "An unknown error occurred.". *)
Theorem handleGeolocate_error_keeps_observation (code : Z) (st : AppState) :
  formData (handleGeolocate_error code st) = formData st /\
  weatherData (handleGeolocate_error code st) = weatherData st /\
  prediction (handleGeolocate_error code st) = prediction st /\
  loading (handleGeolocate_error code st) = loading st /\
  (forall wd total,
      weatherData st = Some wd ->
      runningTotal (formData st) wd = JS.Normal total ->
      predictFishBite (handleGeolocate_error code st)
        = JS.Normal (setPrediction (Some (clamp total)) (handleGeolocate_error code st))) /\
  (code <> PERMISSION_DENIED -> code <> POSITION_UNAVAILABLE -> code <> TIMEOUT ->
   error (handleGeolocate_error code st) = Some "An unknown error occurred.").
Proof.
  repeat match goal with |- _ /\ _ => split end; try reflexivity.
  - intros wd total Hwd Ht. unfold predictFishBite. simpl. rewrite Hwd, Ht. reflexivity.
  - intros H1 H2 H3. unfold handleGeolocate_error. simpl.
    destruct (Z.eqb_spec code PERMISSION_DENIED); [contradiction|].
    destruct (Z.eqb_spec code POSITION_UNAVAILABLE); [contradiction|].
    destruct (Z.eqb_spec code TIMEOUT); [contradiction|]. reflexivity.
Qed.

Lemma handleGeolocate_error_keeps_observation_witness :
  predictFishBite (handleGeolocate_error 7 scenarioA)
    = JS.Normal (setPrediction (Some 100) (handleGeolocate_error 7 scenarioA)) /\
  error (handleGeolocate_error 7 scenarioA) = Some "An unknown error occurred.".
Proof.
  destruct (handleGeolocate_error_keeps_observation 7 scenarioA)
    as (_ & _ & _ & _ & Hscore & Hmsg).
  split.
  - exact (Hscore observationA 115 eq_refl eq_refl).
  - apply Hmsg; discriminate.
Defined.

(** X13: from the state a fulfilled request leaves, by name or by
    coordinates, with an observation that has a first condition, the Predict
    button is enabled and the scorer returns with a score from 25 to 100;
    from the state a rejected request leaves, the button is disabled. *)
Theorem resolve_then_predict (data : WeatherData) (c : Condition)
    (cs : list Condition) (st : AppState) :
  weather data = c :: cs ->
  (forall st1,
      st1 = fetchWeatherData_settled (Fulfilled data) st \/
      st1 = fetchWeatherByCoords_settled (Fulfilled data) st ->
      predictDisabled st1 = false /\
      exists score,
        predictFishBite st1 = JS.Normal (setPrediction (Some score) st1) /\
        25 <= score <= 100) /\
  predictDisabled (fetchWeatherData_settled Rejected st) = true /\
  predictDisabled (fetchWeatherByCoords_settled Rejected st) = true.
Proof.
  intros Hc. split; [|split; reflexivity].
  intros st1 Hst1.
  assert (Hwd : weatherData st1 = Some data) by (destruct Hst1; subst st1; reflexivity).
  split; [unfold predictDisabled; rewrite Hwd; reflexivity|].
  pose proof (runningTotal_defined (formData st1) data c cs Hc) as Ht.
  pose proof (runningTotal_bounds _ _ _ Ht) as Hb.
  eexists. split.
  - unfold predictFishBite. rewrite Hwd, Ht. reflexivity.
  - unfold clamp, JS.max, JS.min. lia.
Qed.

Lemma resolve_then_predict_witness :
  exists score,
    predictFishBite (fetchWeatherData_settled (Fulfilled observationA) typedOslo)
      = JS.Normal (setPrediction (Some score)
                     (fetchWeatherData_settled (Fulfilled observationA) typedOslo)) /\
    25 <= score <= 100.
Proof.
  destruct (resolve_then_predict observationA (mkCondition "Clear" "clear sky") []
              typedOslo eq_refl) as [H _].
  exact (proj2 (H _ (or_introl eq_refl))).
Defined.

(** ** The form *)

Ltac field_cases f :=
  destruct (String.eqb_spec f "location") as [->|?];
  [|destruct (String.eqb_spec f "waterTemperature") as [->|?];
    [|destruct (String.eqb_spec f "timeOfDay") as [->|?];
      [|destruct (String.eqb_spec f "moonPhase") as [->|?]]]].

(** X14: changing an input twice keeps the later value; changes of two
    different inputs can be made in either order; and a change touches the
    form only: the observation, the prediction, the message and the busy
    flags stay, so a score shown is not recomputed when the form changes. *)
Theorem handleInputChange_fields (b : Browser) (f1 f2 v1 v2 : string)
    (st : AppState) :
  handleInputChange b f1 v2 (handleInputChange b f1 v1 st)
    = handleInputChange b f1 v2 st /\
  (f1 <> f2 ->
   handleInputChange b f1 v1 (handleInputChange b f2 v2 st)
     = handleInputChange b f2 v2 (handleInputChange b f1 v1 st)) /\
  weatherData (handleInputChange b f1 v1 st) = weatherData st /\
  prediction (handleInputChange b f1 v1 st) = prediction st /\
  error (handleInputChange b f1 v1 st) = error st /\
  loading (handleInputChange b f1 v1 st) = loading st /\
  geoLoading (handleInputChange b f1 v1 st) = geoLoading st.
Proof.
  repeat match goal with |- _ /\ _ => split end; try reflexivity.
  - unfold handleInputChange, setFormData. field_cases f1; reflexivity.
  - intros Hne. unfold handleInputChange, setFormData.
    field_cases f1; field_cases f2; simpl; try reflexivity; contradiction.
Qed.

Lemma handleInputChange_fields_witness :
  handleInputChange sampleBrowser "moonPhase" "new"
    (handleInputChange sampleBrowser "timeOfDay" "17:30" scenarioA)
  = handleInputChange sampleBrowser "timeOfDay" "17:30"
      (handleInputChange sampleBrowser "moonPhase" "new" scenarioA).
Proof.
  apply (proj1 (proj2 (handleInputChange_fields sampleBrowser
                         "moonPhase" "timeOfDay" "new" "17:30" scenarioA))).
  discriminate.
Defined.

(** ** Sessions *)

(** What every step keeps, every run from a state that has it keeps. *)
Lemma run_invariant (b : Browser) (P : Session -> Prop) :
  (forall e s s', P s -> step b e s = Some s' -> P s') ->
  forall es s s', P s -> run b es s = Some s' -> P s'.
Proof.
  intros Hstep es. induction es as [|e es IH]; simpl; intros s s' Hs Hrun.
  - congruence.
  - destruct (step b e s) as [s1|] eqn:He; [|discriminate].
    exact (IH s1 s' (Hstep e s s1 Hs He) Hrun).
Qed.

Ltac step_cases e s Hstep :=
  unfold step, getWeatherDisabled, geolocateDisabled, predictDisabled,
    fetchWeatherData_request, handleGeolocate_request, predictFishBite in Hstep;
  destruct e as [field value| | | |r|l|r];
  repeat (match type of Hstep with
          | context [match weatherData ?x with _ => _ end] => destruct (weatherData x) eqn:?
          | context [match runningTotal ?x ?y with _ => _ end] =>
              destruct (runningTotal x y) eqn:?
          | context [match namePending ?x with _ => _ end] => destruct (namePending x) eqn:?
          | context [match positionPending ?x with _ => _ end] =>
              destruct (positionPending x) eqn:?
          | context [match coordsPending ?x with _ => _ end] =>
              destruct (coordsPending x) eqn:?
          | context [match ?x with Position _ _ => _ | PositionError _ => _ end] =>
              destruct x
          | context [if ?c then _ else _] => destruct c eqn:?
          | context [JS.bind _ _] => unfold JS.bind in Hstep
          end; cbv beta iota in Hstep);
  try discriminate Hstep;
  match type of Hstep with
  | Some ?a = Some ?b =>
      let E := fresh "E" in
      assert (E : a = b) by congruence; clear Hstep; subst b
  end.

Lemma step_busy (b : Browser) (e : event) (s s' : Session) :
  ((loading (ui s) = true -> 0 < namePending s + coordsPending s)%nat /\
   (positionPending s + coordsPending s = if geoLoading (ui s) then 1 else 0)%nat /\
   (geolocation b = false -> positionPending s = O /\ coordsPending s = O)) ->
  step b e s = Some s' ->
  ((loading (ui s') = true -> 0 < namePending s' + coordsPending s')%nat /\
   (positionPending s' + coordsPending s' = if geoLoading (ui s') then 1 else 0)%nat /\
   (geolocation b = false -> positionPending s' = O /\ coordsPending s' = O)).
Proof.
  intros (HL & HG & HU) Hstep.
  step_cases e s Hstep; simpl in *;
    repeat match goal with
           | H : (if ?c then _ else _) = _ |- _ => destruct c eqn:?; simpl in *
           | r : settled |- _ => destruct r; simpl in *
           end;
    repeat split; intros;
    try match goal with
        | H : negb ?x = _, H' : ?x = _ |- _ => rewrite H' in H; simpl in H
        end;
    try discriminate; try lia; try congruence;
    try (pose proof (HL ltac:(assumption)); lia);
    try (destruct (geoLoading (ui s)); lia);
    try (destruct (geoLoading (ui s)); destruct (HU ltac:(assumption)); lia).
Qed.

(** X15: in every session, [loading] is true only while a request by name or
    by coordinates is outstanding; [geoLoading] is true exactly while a
    geolocation or the request it started is outstanding, and there is never
    more than one of these; in a browser without geolocation [geoLoading]
    is never true. *)
Theorem busy_flags_track_calls (b : Browser) (es : list event) (s : Session) :
  run b es start = Some s ->
  (loading (ui s) = true -> 0 < namePending s + coordsPending s)%nat /\
  (positionPending s + coordsPending s = if geoLoading (ui s) then 1 else 0)%nat /\
  (geolocation b = false -> geoLoading (ui s) = false).
Proof.
  intros Hrun.
  pose proof (run_invariant b _ (step_busy b) es start s) as H.
  destruct H as (HL & HG & HU); [|exact Hrun|].
  - simpl. repeat split; try reflexivity; discriminate.
  - split; [exact HL|]. split; [exact HG|].
    intros Hb. destruct (HU Hb) as [Hp Hc]. rewrite Hp, Hc in HG.
    destruct (geoLoading (ui s)); [discriminate|reflexivity].
Qed.

Lemma busy_flags_track_calls_witness :
  exists s,
    run sampleBrowser [ClickGeolocate; PositionCallback (Position (JS.lit 60) (JS.lit 11))]
        start = Some s /\
    loading (ui s) = true /\ geoLoading (ui s) = true /\
    coordsPending s = 1%nat /\ positionPending s = O.
Proof.
  eexists. split; [reflexivity|].
  pose proof (busy_flags_track_calls sampleBrowser
                [ClickGeolocate; PositionCallback (Position (JS.lit 60) (JS.lit 11))]
                _ eq_refl) as (_ & HG & _).
  simpl in *. repeat split; lia.
Defined.

Lemma step_messages (b : Browser) (e : event) (s s' : Session) :
  (forall msg, error (ui s) = Some msg ->
     In msg ["Geolocation is not supported by your browser";
             "Please enter a location";
             "Could not fetch weather data. Please check the location.";
             "Could not fetch weather data for your location.";
             "User denied the request for Geolocation.";
             "Location information is unavailable.";
             "The request to get user location timed out.";
             "An unknown error occurred."]) ->
  step b e s = Some s' ->
  (forall msg, error (ui s') = Some msg ->
     In msg ["Geolocation is not supported by your browser";
             "Please enter a location";
             "Could not fetch weather data. Please check the location.";
             "Could not fetch weather data for your location.";
             "User denied the request for Geolocation.";
             "Location information is unavailable.";
             "The request to get user location timed out.";
             "An unknown error occurred."]).
Proof.
  intros Hinv Hstep.
  step_cases e s Hstep; intros msg Hm;
    try match goal with r : settled |- _ => destruct r end;
    simpl in Hm;
    try (exact (Hinv msg Hm)); try discriminate Hm;
    repeat match type of Hm with
           | context [if ?c then _ else _] => destruct c
           end;
    injection Hm as <-; simpl; tauto.
Qed.

(** X16: in every session, the message stored, if any, is one of the eight
    messages of the resolver and the geolocation, it is not empty and so it
    is shown, and it is never "Please fetch weather data first": the Predict
    button is disabled as long as no observation is stored. *)
Theorem session_messages (b : Browser) (es : list event) (s : Session) (msg : string) :
  run b es start = Some s ->
  error (ui s) = Some msg ->
  In msg ["Geolocation is not supported by your browser";
          "Please enter a location";
          "Could not fetch weather data. Please check the location.";
          "Could not fetch weather data for your location.";
          "User denied the request for Geolocation.";
          "Location information is unavailable.";
          "The request to get user location timed out.";
          "An unknown error occurred."] /\
  errorMessage (ui s) = Some msg /\
  msg <> "Please fetch weather data first".
Proof.
  intros Hrun Hm.
  pose proof (run_invariant b _ (step_messages b) es start s) as H.
  assert (Hin : In msg ["Geolocation is not supported by your browser";
          "Please enter a location";
          "Could not fetch weather data. Please check the location.";
          "Could not fetch weather data for your location.";
          "User denied the request for Geolocation.";
          "Location information is unavailable.";
          "The request to get user location timed out.";
          "An unknown error occurred."]).
  { apply H; [|exact Hrun|exact Hm]. intros m Hstart. discriminate Hstart. }
  split; [exact Hin|].
  unfold errorMessage. rewrite Hm. simpl in Hin.
  repeat (destruct Hin as [<-|Hin]; [split; [reflexivity|discriminate]|]).
  contradiction.
Qed.

Lemma session_messages_witness :
  exists s,
    run sampleBrowser [ClickGetWeather] start = Some s /\
    error (ui s) = Some "Please enter a location" /\
    errorMessage (ui s) = Some "Please enter a location".
Proof.
  eexists. split; [reflexivity|]. split; [reflexivity|].
  exact (proj1 (proj2 (session_messages sampleBrowser [ClickGetWeather] _
                         "Please enter a location" eq_refl eq_refl))).
Defined.

Lemma step_prediction (b : Browser) (e : event) (s s' : Session) :
  (forall p, prediction (ui s) = Some p -> 25 <= p <= 100) ->
  step b e s = Some s' ->
  (forall p, prediction (ui s') = Some p -> 25 <= p <= 100).
Proof.
  intros Hinv Hstep.
  step_cases e s Hstep; intros p Hp;
    try match goal with r : settled |- _ => destruct r end;
    simpl in Hp;
    try (exact (Hinv p Hp)); try discriminate Hp.
  match goal with
  | H : runningTotal _ _ = JS.Normal ?t |- _ =>
      pose proof (runningTotal_bounds _ _ _ H) as Hb;
      assert (Hc : clamp t = p) by congruence
  end.
  unfold clamp, JS.max, JS.min in Hc. lia.
Qed.

(** X17: in every session, the prediction stored, if any, is from 25 to
    100, whatever was typed, fetched or clicked before. *)
Theorem session_prediction (b : Browser) (es : list event) (s : Session) (p : Z) :
  run b es start = Some s ->
  prediction (ui s) = Some p ->
  25 <= p <= 100.
Proof.
  intros Hrun Hp.
  apply (run_invariant b _ (step_prediction b) es start s); [|exact Hrun|exact Hp].
  intros q Hq. discriminate Hq.
Qed.

Lemma session_prediction_witness :
  exists s,
    run sampleBrowser rainyDay start = Some s /\
    prediction (ui s) = Some 25 /\ 25 <= 25 <= 100.
Proof.
  eexists. split; [reflexivity|]. split; [reflexivity|].
  exact (session_prediction sampleBrowser rainyDay _ 25 eq_refl eq_refl).
Defined.

(** X18: the response to a request by coordinates clears [loading] even
    when a request by name is still outstanding: in a browser with
    geolocation a session can reach a state where the Get Weather button is
    enabled again while its own request has not come back. *)
Theorem loading_cleared_early (b : Browser) (r : settled)
    (latitude longitude : JS.number) (place : string) :
  geolocation b = true ->
  place <> "" ->
  exists s,
    run b [Change "location" place; ClickGetWeather; ClickGeolocate;
           PositionCallback (Position latitude longitude); CoordsResponse r]
        start = Some s /\
    namePending s = 1%nat /\
    loading (ui s) = false /\
    getWeatherDisabled (ui s) = false.
Proof.
  intros Hgeo Hplace.
  assert (Hne : String.eqb place "" = false)
    by (destruct (String.eqb_spec place ""); [contradiction|reflexivity]).
  unfold run, step, getWeatherDisabled, geolocateDisabled,
    fetchWeatherData_request, handleGeolocate_request, fetchWeatherByCoords_request.
  cbn. rewrite Hne. cbn. rewrite Hgeo. cbn.
  eexists. split; [reflexivity|].
  destruct r; repeat split; reflexivity.
Qed.

Lemma loading_cleared_early_witness :
  exists s,
    run sampleBrowser
        [Change "location" "Oslo"; ClickGetWeather; ClickGeolocate;
         PositionCallback (Position (JS.lit 60) (JS.lit 11)); CoordsResponse Rejected]
        start = Some s /\
    namePending s = 1%nat /\
    getWeatherDisabled (ui s) = false.
Proof.
  assert (Hplace : "Oslo" <> "") by discriminate.
  destruct (loading_cleared_early sampleBrowser Rejected
              (JS.lit 60) (JS.lit 11) "Oslo" eq_refl Hplace)
    as (s & Hrun & Hn & _ & Hd).
  exists s. repeat split; assumption.
Defined.
